(** * Document360 drive-folder client: a shallow embedding of
      [document360_api.py] and the properties of its four operations.

    The class [Document360API] keeps one mutable field, [folder_id], and
    talks to the outside through three channels: [requests.*] (the
    transport), [response.json()] (the decoder of the transport library)
    and [print] (the console).  The embedding threads the instance through
    a small state-and-exception monad and records every use of the three
    channels, in program order, in a trace.

    Two things are taken for granted: [print] and [json.dumps] of the
    values logged do not raise, and nothing outside [Exception]
    (a keyboard interrupt, an exit) occurs, those being the only faults the
    [except] clauses of the methods let through. *)

From Stdlib Require Import String Ascii List ZArith Bool Lia.
Import ListNotations.
Local Open Scope string_scope.
Local Open Scope Z_scope.
Local Open Scope list_scope.
Set Warnings "-register-all".

(** ** Python values

    The values the program handles are the ones [json] decodes to and the
    ones a caller passes as arguments: [None], booleans, integers, floats,
    strings, lists and dicts.  A dict is an association list in insertion
    order, read by first match.  A float is kept as mantissa and binary
    exponent, the only thing the program asks of it being whether it is
    zero.  A string holds the bytes of its UTF-8 encoding. *)

Inductive pyval : Type :=
| PNone
| PBool (b : bool)
| PInt (z : Z)
| PFloat (m e : Z)
| PStr (s : string)
| PList (l : list pyval)
| PDict (d : list (string * pyval)).

(** Truth value of an object, as tested by [if x:], [not x] and [x or y]. *)
Definition truthy (v : pyval) : bool :=
  match v with
  | PNone => false
  | PBool b => b
  | PInt z => negb (z =? 0)
  | PFloat m _ => negb (m =? 0)
  | PStr s => negb (String.eqb s "")
  | PList l => match l with [] => false | _ :: _ => true end
  | PDict d => match d with [] => false | _ :: _ => true end
  end.

(** [a or b] *)
Definition py_or (a b : pyval) : pyval := if truthy a then a else b.

Fixpoint lookup (k : string) (d : list (string * pyval)) : option pyval :=
  match d with
  | [] => None
  | (k', v) :: d' => if String.eqb k k' then Some v else lookup k d'
  end.

(** [d.get(k, default)] on a dict *)
Definition dict_get (d : list (string * pyval)) (k : string) (default : pyval)
  : pyval :=
  match lookup k d with Some v => v | None => default end.

(** ** Exceptions

    [ExRequest] stands for [requests.exceptions.RequestException] and its
    subclasses, [ExOther] for any other [Exception] a library raises;
    [ExAttribute] and [ExType] are the two the interpreter itself raises in
    this program (a method missing on a value; [len] or iteration of a
    value that has none). *)

Inductive exn : Type :=
| ExRequest (msg : string)
| ExOther (msg : string)
| ExAttribute (v : pyval) (attr : string)
| ExType (v : pyval).

Definition is_request_exception (e : exn) : bool :=
  match e with ExRequest _ => true | _ => false end.

Inductive outcome (A : Type) : Type :=
| Ret (a : A)
| Exc (e : exn).
Arguments Ret {A} a.
Arguments Exc {A} e.

(** ** Console output

    A printed line is kept as the pieces of its f-string: literal text,
    [str(v)] of a value, [json.dumps(v, indent=2)], the formatted clock
    reading and [str(e)] of an exception. *)

Inductive frag : Type :=
| Lit (s : string)
| Str (v : pyval)
| Dumps (v : pyval)
| Now
| ErrStr (e : exn).

Definition fstring := list frag.

Definition nl : string := String (ascii_of_nat 10) EmptyString.

Fixpoint rep (s : string) (n : nat) : string :=
  match n with O => "" | S n' => (s ++ rep s n')%string end.

(** ** Transport *)

Record request : Type := {
  req_method : string;
  req_url : fstring;
  req_headers : pyval;
  req_json : option pyval
}.

(** What the program reads of a [requests.Response]: [json_body] is what
    the method [json()] returns or raises.  The fields are independent
    observations; nothing ties [json_body] to [content]. *)
Record response : Type := {
  status_code : Z;
  content : string;
  text : string;
  json_body : outcome pyval
}.

Inductive event : Type :=
| EvPrint (line : fstring)
| EvRequest (r : request)
| EvDecode (r : response).

(** ** The client instance *)

Record client : Type := {
  api_token : pyval;
  user_id : pyval;
  base_url : string;
  headers : list (string * pyval);
  folder_id : pyval
}.

Definition set_folder_id (v : pyval) (c : client) : client :=
  {| api_token := api_token c; user_id := user_id c; base_url := base_url c;
     headers := headers c; folder_id := v |}.

(** [__init__] *)
Definition init (token uid : pyval) : client :=
  let h := [("api_token", token); ("Content-Type", PStr "application/json")] in
  {| api_token := token;
     user_id := uid;
     base_url := "https://apihub.document360.io/v2/Drive/Folders";
     headers := if truthy uid then h ++ [("user_id", uid)] else h;
     folder_id := PNone |}.

(** ** The monad: instance in, outcome, instance and trace out *)

Definition M (A : Type) : Type := client -> outcome A * client * list event.

Definition ret {A} (a : A) : M A := fun c => (Ret a, c, []).

Definition raise {A} (e : exn) : M A := fun c => (Exc e, c, []).

Definition bind {A B} (m : M A) (f : A -> M B) : M B :=
  fun c =>
    match m c with
    | (Ret a, c1, t1) =>
        match f a c1 with (r, c2, t2) => (r, c2, t1 ++ t2) end
    | (Exc e, c1, t1) => (Exc e, c1, t1)
    end.

(** [try: m except ... as e: h e]; the handler sees the instance as the
    body left it. *)
Definition try_except {A} (m : M A) (h : exn -> M A) : M A :=
  fun c =>
    match m c with
    | (Ret a, c1, t1) => (Ret a, c1, t1)
    | (Exc e, c1, t1) =>
        match h e c1 with (r, c2, t2) => (r, c2, t1 ++ t2) end
    end.

Definition get_self : M client := fun c => (Ret c, c, []).

Definition emit (e : event) : M unit := fun c => (Ret tt, c, [e]).

Definition print (line : fstring) : M unit := emit (EvPrint line).

Definition assign_folder_id (v : pyval) : M unit :=
  fun c => (Ret tt, set_folder_id v c, []).

Declare Scope py_scope.
Delimit Scope py_scope with py.
Notation "x <- m ;; k" := (bind m (fun x => k))
  (at level 61, m at next level, right associativity) : py_scope.
Notation "m ;; k" := (bind m (fun _ => k))
  (at level 61, right associativity) : py_scope.
Local Open Scope py_scope.

Definition when (b : bool) (m : M unit) : M unit := if b then m else ret tt.

(** [for x in xs: body x] *)
Fixpoint for_each {A} (xs : list A) (body : A -> M unit) : M unit :=
  match xs with
  | [] => ret tt
  | x :: xs' => body x ;; for_each xs' body
  end.

(** [for i, x in enumerate(xs, i0): body i x] *)
Fixpoint for_enumerate {A} (i0 : Z) (xs : list A) (body : Z -> A -> M unit)
  : M unit :=
  match xs with
  | [] => ret tt
  | x :: xs' => body i0 x ;; for_enumerate (i0 + 1) xs' body
  end.

(** ** What the interpreter and the libraries do on values *)

(** [v.get(k, default)]: only a dict has the method. *)
Definition py_get (v : pyval) (k : string) (default : pyval) : M pyval :=
  match v with
  | PDict d => ret (dict_get d k default)
  | _ => raise (ExAttribute v "get")
  end.

(** [len(v)].  A string is counted, and below iterated, by the bytes of
    its encoding, which is Python's count for ASCII text; the program only
    prints the number, and an item of a string is never a dict. *)
Definition py_len (v : pyval) : M Z :=
  match v with
  | PStr s => ret (Z.of_nat (String.length s))
  | PList l => ret (Z.of_nat (List.length l))
  | PDict d => ret (Z.of_nat (List.length d))
  | _ => raise (ExType v)
  end.

Fixpoint chars (s : string) : list pyval :=
  match s with
  | EmptyString => []
  | String a s' => PStr (String a EmptyString) :: chars s'
  end.

(** The items a [for] loop draws from [v]: the elements of a list, the keys
    of a dict, the characters of a string. *)
Definition py_iter (v : pyval) : M (list pyval) :=
  match v with
  | PStr s => ret (chars s)
  | PList l => ret l
  | PDict d => ret (map (fun kv => PStr (fst kv)) d)
  | _ => raise (ExType v)
  end.

(** [response.json()] *)
Definition resp_json (r : response) : M pyval :=
  fun c => (json_body r, c, [EvDecode r]).

Definition mem_status (s : Z) (accepted : list Z) : bool :=
  existsb (Z.eqb s) accepted.

(** ** The methods of [Document360API] *)

Section Methods.

(** The transport: what [requests.get], [post], [put] and [delete] return
    or raise on a request. *)
Variable transport : request -> outcome response.

Definition requests_call (method : string) (url : fstring)
  (hdrs : pyval) (body : option pyval) : M response :=
  fun c =>
    let rq := {| req_method := method; req_url := url;
                 req_headers := hdrs; req_json := body |} in
    (transport rq, c, [EvRequest rq]).

Definition log_request (method : string) (url : fstring) (hdrs body : pyval)
  : M unit :=
  print [Lit nl; Lit (rep "=" 50)] ;;
  print [Lit "REQUEST LOG - "; Now] ;;
  print [Lit (rep "=" 50)] ;;
  print [Lit "Method: "; Lit method] ;;
  print (Lit "URL: " :: url) ;;
  print [Lit "Headers: "; Dumps hdrs] ;;
  when (truthy body) (print [Lit "Body: "; Dumps body]).

Definition log_response (r : response) : M unit :=
  print [Lit nl; Lit (rep "=" 50)] ;;
  print [Lit "RESPONSE LOG - "; Now] ;;
  print [Lit (rep "=" 50)] ;;
  print [Lit "Status Code: "; Str (PInt (status_code r))] ;;
  print [Lit "Status: ";
         Lit (if status_code r <? 400 then "SUCCESS" else "ERROR")] ;;
  try_except
    (response_json <- resp_json r ;;
     print [Lit "Response Body: "; Dumps response_json])
    (fun _ => print [Lit "Response Body (Raw): "; Lit (text r)]) ;;
  when (status_code r >=? 400) (print [Lit "ERROR MESSAGE: "; Lit (text r)]).

(** The two [except] clauses every method ends with. *)
Definition report (result : pyval) (e : exn) : M pyval :=
  (if is_request_exception e
   then print [Lit nl; Lit "❌ REQUEST ERROR: "; ErrStr e]
   else print [Lit nl; Lit "❌ UNEXPECTED ERROR: "; ErrStr e]) ;;
  ret result.

(** The loop over the [errors] list of an envelope. *)
Definition print_errors (response_data : pyval) : M unit :=
  errors <- py_get response_data "errors" (PList []) ;;
  items <- py_iter errors ;;
  for_each items (fun error =>
    d <- py_get error "description" (PStr "Unknown error") ;;
    print [Lit "  Error: "; Str d]).

Definition get_all_folders : M pyval :=
  print [Lit nl; Lit (rep "*" 60)] ;;
  print [Lit "TASK #1: FETCHING ALL DRIVE FOLDERS"] ;;
  print [Lit (rep "*" 60)] ;;
  try_except
    (self <- get_self ;;
     log_request "GET" [Lit (base_url self)] (PDict (headers self)) PNone ;;
     r <- requests_call "GET" [Lit (base_url self)] (PDict (headers self))
            None ;;
     log_response r ;;
     if status_code r =? 200 then
       response_data <- resp_json r ;;
       folders <- py_get response_data "data" (PList []) ;;
       n <- py_len folders ;;
       print [Lit nl; Lit "✅ SUCCESS: Found "; Str (PInt n); Lit " folders"] ;;
       items <- py_iter folders ;;
       for_enumerate 1 items (fun i folder =>
         print [Lit nl; Lit "Folder "; Str (PInt i); Lit ":"] ;;
         v <- py_get folder "title" (PStr "N/A") ;;
         print [Lit "  Name: "; Str v] ;;
         v <- py_get folder "id" (PStr "N/A") ;;
         print [Lit "  ID: "; Str v] ;;
         v <- py_get folder "updated_on" (PStr "N/A") ;;
         print [Lit "  Updated: "; Str v] ;;
         v <- py_get folder "items_count" (PInt 0) ;;
         print [Lit "  Items Count: "; Str v]) ;;
       ret folders
     else
       print [Lit nl; Lit "❌ ERROR: Failed to fetch folders"] ;;
       ret PNone)
    (report PNone).

Definition create_folder (folder_name parent_folder_id : pyval) : M pyval :=
  print [Lit nl; Lit (rep "*" 60)] ;;
  print [Lit "TASK #2: CREATING A NEW FOLDER"] ;;
  print [Lit (rep "*" 60)] ;;
  self <- get_self ;;
  let body0 := [("title", folder_name); ("user_id", user_id self)] in
  let body := if truthy parent_folder_id
              then body0 ++ [("parent_folder_id", parent_folder_id)]
              else body0 in
  try_except
    (log_request "POST" [Lit (base_url self)] (PDict (headers self))
       (PDict body) ;;
     r <- requests_call "POST" [Lit (base_url self)] (PDict (headers self))
            (Some (PDict body)) ;;
     log_response r ;;
     if mem_status (status_code r) [200; 201] then
       response_data <- resp_json r ;;
       ok <- py_get response_data "success" (PBool false) ;;
       if truthy ok then
         folder_data <- py_get response_data "data" (PDict []) ;;
         new_id <- py_get folder_data "id" PNone ;;
         assign_folder_id new_id ;;
         print [Lit nl; Lit "✅ SUCCESS: Folder created successfully!"] ;;
         v <- py_get folder_data "title" (PStr "N/A") ;;
         print [Lit "  Folder Name: "; Str v] ;;
         self' <- get_self ;;
         print [Lit "  Folder ID: "; Str (folder_id self')] ;;
         v <- py_get folder_data "updated_on" (PStr "N/A") ;;
         print [Lit "  Updated At: "; Str v] ;;
         ret folder_data
       else
         print [Lit nl; Lit "❌ ERROR: API returned success=false"] ;;
         print_errors response_data ;;
         ret PNone
     else
       print [Lit nl; Lit "❌ ERROR: Failed to create folder"] ;;
       ret PNone)
    (report PNone).

Definition update_folder_name (new_name folder_id_arg : pyval) : M pyval :=
  print [Lit nl; Lit (rep "*" 60)] ;;
  print [Lit "TASK #3: UPDATING FOLDER NAME"] ;;
  print [Lit (rep "*" 60)] ;;
  self <- get_self ;;
  let target_folder_id := py_or folder_id_arg (folder_id self) in
  if negb (truthy target_folder_id) then
    print [Lit nl;
           Lit "❌ ERROR: No folder ID available. Create a folder first."] ;;
    ret PNone
  else
    let url := [Lit (base_url self); Lit "/"; Str target_folder_id] in
    let body := [("title", new_name); ("user_id", user_id self)] in
    try_except
      (log_request "PUT" url (PDict (headers self)) (PDict body) ;;
       r <- requests_call "PUT" url (PDict (headers self))
              (Some (PDict body)) ;;
       log_response r ;;
       if status_code r =? 200 then
         response_data <- resp_json r ;;
         ok <- py_get response_data "success" (PBool false) ;;
         if truthy ok then
           folder_data <- py_get response_data "data" (PDict []) ;;
           print [Lit nl; Lit "✅ SUCCESS: Folder name updated successfully!"] ;;
           v <- py_get folder_data "title" (PStr "N/A") ;;
           print [Lit "  New Folder Name: "; Str v] ;;
           print [Lit "  Folder ID: "; Str target_folder_id] ;;
           v <- py_get folder_data "updated_on" (PStr "N/A") ;;
           print [Lit "  Updated At: "; Str v] ;;
           ret folder_data
         else
           print [Lit nl; Lit "❌ ERROR: API returned success=false"] ;;
           print_errors response_data ;;
           ret PNone
       else
         print [Lit nl; Lit "❌ ERROR: Failed to update folder name"] ;;
         ret PNone)
      (report PNone).

Definition delete_folder (folder_id_arg : pyval) : M pyval :=
  print [Lit nl; Lit (rep "*" 60)] ;;
  print [Lit "TASK #4: DELETING FOLDER"] ;;
  print [Lit (rep "*" 60)] ;;
  self <- get_self ;;
  let target_folder_id := py_or folder_id_arg (folder_id self) in
  if negb (truthy target_folder_id) then
    print [Lit nl;
           Lit "❌ ERROR: No folder ID available. Create a folder first."] ;;
    ret PNone
  else
    let url := [Lit (base_url self); Lit "/"; Str target_folder_id] in
    let body := [("user_id", user_id self)] in
    try_except
      (log_request "DELETE" url (PDict (headers self)) (PDict body) ;;
       r <- requests_call "DELETE" url (PDict (headers self))
              (Some (PDict body)) ;;
       log_response r ;;
       if mem_status (status_code r) [200; 204] then
         success <-
           (if negb (String.eqb (content r) "") then
              try_except
                (response_data <- resp_json r ;;
                 py_get response_data "success" (PBool true))
                (fun _ => ret (PBool true))
            else ret (PBool true)) ;;
         if truthy success then
           print [Lit nl; Lit "✅ SUCCESS: Folder deleted successfully!"] ;;
           print [Lit "  Deleted Folder ID: "; Str target_folder_id] ;;
           assign_folder_id PNone ;;
           ret (PBool true)
         else
           print [Lit nl; Lit "❌ ERROR: API returned success=false"] ;;
           when (negb (String.eqb (content r) ""))
             (try_except
                (response_data <- resp_json r ;;
                 print_errors response_data)
                (fun _ => ret tt)) ;;
           ret (PBool false)
       else
         print [Lit nl; Lit "❌ ERROR: Failed to delete folder"] ;;
         ret (PBool false))
      (report (PBool false)).

End Methods.

(** ** Reading a run *)

Definition result {A} (x : outcome A * client * list event) : outcome A :=
  fst (fst x).
Definition final {A} (x : outcome A * client * list event) : client :=
  snd (fst x).
Definition trace {A} (x : outcome A * client * list event) : list event :=
  snd x.

Definition is_request (e : event) : bool :=
  match e with EvRequest _ => true | _ => false end.
Definition is_decode (e : event) : bool :=
  match e with EvDecode _ => true | _ => false end.

(** The requests handed to the transport, and the calls of [json()]. *)
Definition requests_of (t : list event) : list event := filter is_request t.
Definition decodes_of (t : list event) : list event := filter is_decode t.

(** The reason of a failure is the last thing the method printed. *)
Definition last_event (t : list event) : option event :=
  match rev t with [] => None | e :: _ => Some e end.


(** ** Frame: computations that leave the instance as it is *)

Definition keeps_self {A} (m : M A) : Prop := forall c, final (m c) = c.

(** ** Requests and pure readings of a response *)

Definition folder_url (c : client) (target : pyval) : fstring :=
  [Lit (base_url c); Lit "/"; Str target].

Definition delete_request (c : client) (folder_id_arg : pyval) : request :=
  {| req_method := "DELETE";
     req_url := folder_url c (py_or folder_id_arg (folder_id c));
     req_headers := PDict (headers c);
     req_json := Some (PDict [("user_id", user_id c)]) |}.

(** Whether [delete_folder] takes a response for a success. *)
Definition delete_succeeds (r : response) : bool :=
  mem_status (status_code r) [200; 204] &&
  (String.eqb (content r) "" ||
   match json_body r with
   | Ret (PDict d) => truthy (dict_get d "success" (PBool true))
   | _ => true
   end).

Definition list_request (c : client) : request :=
  {| req_method := "GET";
     req_url := [Lit (base_url c)];
     req_headers := PDict (headers c);
     req_json := None |}.

Definition create_body (c : client) (folder_name parent_folder_id : pyval)
  : list (string * pyval) :=
  if truthy parent_folder_id
  then [("title", folder_name); ("user_id", user_id c)]
       ++ [("parent_folder_id", parent_folder_id)]
  else [("title", folder_name); ("user_id", user_id c)].

Definition create_request (c : client) (folder_name parent_folder_id : pyval)
  : request :=
  {| req_method := "POST";
     req_url := [Lit (base_url c)];
     req_headers := PDict (headers c);
     req_json := Some (PDict (create_body c folder_name parent_folder_id)) |}.

Definition update_request (c : client) (new_name folder_id_arg : pyval)
  : request :=
  {| req_method := "PUT";
     req_url := folder_url c (py_or folder_id_arg (folder_id c));
     req_headers := PDict (headers c);
     req_json := Some (PDict [("title", new_name); ("user_id", user_id c)]) |}.

(** The record an envelope yields when its status is among [accepted], its
    body decodes to a dict with a true [success] and its [data] is a dict. *)
Definition envelope_record (accepted : list Z) (r : response)
  : option (list (string * pyval)) :=
  if mem_status (status_code r) accepted then
    match json_body r with
    | Ret (PDict d) =>
        if truthy (dict_get d "success" (PBool false)) then
          match dict_get d "data" (PDict []) with
          | PDict rec => Some rec
          | _ => None
          end
        else None
    | _ => None
    end
  else None.

Definition record_or_none (o : option (list (string * pyval))) : pyval :=
  match o with Some rec => PDict rec | None => PNone end.

(** ** Failures and their reasons

    A method reports a failure by returning [None] ([False] for
    [delete_folder]) after printing why; the reason of a failure is the
    last line of its run. *)

Definition no_target_line : fstring :=
  [Lit nl; Lit "❌ ERROR: No folder ID available. Create a folder first."].

(** The local precondition failure of rename and delete: [None] returned,
    the missing id named as the reason, the transport never called. *)
Definition precondition_failure (x : outcome pyval * client * list event)
  : Prop :=
  result x = Ret PNone
  /\ last_event (trace x) = Some (EvPrint no_target_line)
  /\ requests_of (trace x) = [].

(** The line [report] prints for an exception. *)
Definition error_line (e : exn) : fstring :=
  if is_request_exception e
  then [Lit nl; Lit "❌ REQUEST ERROR: "; ErrStr e]
  else [Lit nl; Lit "❌ UNEXPECTED ERROR: "; ErrStr e].

(** The program's own words in the reason of a run: the text that follows
    the line break in the last line printed. *)
Definition reason_label (t : list event) : option string :=
  match last_event t with
  | Some (EvPrint (_ :: Lit s :: _)) => Some s
  | _ => None
  end.

(** Whether a decoded envelope lacks the [success] flag or carries
    [success: false]. *)
Definition flag_missing_or_false (r : response) : Prop :=
  exists d, json_body r = Ret (PDict d)
            /\ (lookup "success" d = None
                \/ lookup "success" d = Some (PBool false)).

(** The URLs of the requests a run hands to the transport. *)
Definition urls_of (t : list event) : list fstring :=
  flat_map (fun e => match e with EvRequest rq => [req_url rq] | _ => [] end)
           (requests_of t).

(** ** Sample instances, responses and transports *)

Definition dq : string := String (ascii_of_nat 34) EmptyString.

(** A JSON string literal. *)
Definition q (s : string) : string := (dq ++ s ++ dq)%string.

Definition c0 : client := init (PStr "token") (PStr "user-1").

(** An instance that remembers a folder created earlier. *)
Definition c7 : client := set_folder_id (PStr "folder-7") c0.

Definition always (r : response) : request -> outcome response :=
  fun _ => Ret r.

Definition refused : request -> outcome response :=
  fun _ => Exc (ExRequest "Connection refused").

(** What [json()] raises on a body that is not JSON:
    [requests.exceptions.JSONDecodeError], which from requests 2.27 on is a
    [RequestException]. *)
Definition no_json : outcome pyval :=
  Exc (ExRequest "Expecting value: line 1 column 1 (char 0)").

Definition json_response (status : Z) (body : string) (v : pyval) : response :=
  {| status_code := status; content := body; text := body;
     json_body := Ret v |}.



Definition resp_dup : response :=
  json_response 200
    ("{" ++ q "success" ++ ": false, " ++ q "errors" ++ ": [{"
     ++ q "description" ++ ": " ++ q "dup" ++ "}]}")%string
    (PDict [("success", PBool false);
            ("errors", PList [PDict [("description", PStr "dup")]])]).

Definition resp_null_flag : response :=
  json_response 200 ("{" ++ q "success" ++ ": null}")%string
    (PDict [("success", PNone)]).

Definition resp_empty_204 : response :=
  {| status_code := 204; content := ""; text := ""; json_body := no_json |}.

Definition resp_500 : response :=
  {| status_code := 500; content := "Internal Server Error";
     text := "Internal Server Error"; json_body := no_json |}.

Definition resp_not_json : response :=
  {| status_code := 200; content := "<html></html>";
     text := "<html></html>"; json_body := no_json |}.

(** ** The rest of the program *)

(** [validate_response(response, expected_status_codes)]; the result is the
    pair the method returns. *)
Definition validate_response (r : response) (expected_status_codes : list Z)
  : M (bool * fstring) :=
  if negb (mem_status (status_code r) expected_status_codes) then
    ret (false, [Lit "Unexpected status code: "; Str (PInt (status_code r))])
  else
    try_except
      (_ <- resp_json r ;; ret (true, [Lit "Valid JSON response"]))
      (fun _ => ret (false, [Lit "Invalid JSON response"])).

(** [time.sleep(seconds)]: time passes, nothing else happens. *)
Definition sleep (seconds : Z) : M unit := ret tt.

(** [main], run on the instance it builds.  [stamp] is the clock reading
    [datetime.now().strftime('%Y%m%d_%H%M%S')] that names the folder;
    [API_TOKEN] and [USER_ID] stand for the two string literals the source
    passes to the constructor. *)
Definition main (transport : request -> outcome response)
  (API_TOKEN USER_ID : pyval) (stamp : string)
  : outcome unit * client * list event :=
  (print [Lit (rep "=" 80)] ;;
   print [Lit "DOCUMENT360 API CRUD OPERATIONS DEMO"] ;;
   print [Lit (rep "=" 80)] ;;
   try_except
     (print [Lit (nl ++ rep "=" 80)%string] ;;
      print [Lit "STARTING CRUD OPERATIONS SEQUENCE"] ;;
      print [Lit (rep "=" 80)] ;;
      folders <- get_all_folders transport ;;
      sleep 2 ;;
      let folder_name := ("Test Folder " ++ stamp)%string in
      created_folder <- create_folder transport (PStr folder_name) PNone ;;
      sleep 2 ;;
      (if truthy created_folder then
         let new_name := ("Updated " ++ folder_name)%string in
         updated_folder <-
           update_folder_name transport (PStr new_name) PNone ;;
         sleep 2 ;;
         _ <- delete_folder transport PNone ;;
         ret tt
       else ret tt) ;;
      print [Lit (nl ++ rep "=" 80)%string] ;;
      print [Lit "CRUD OPERATIONS COMPLETED SUCCESSFULLY!"] ;;
      print [Lit (rep "=" 80)])
     (fun e => print [Lit nl; Lit "❌ MAIN EXECUTION ERROR: "; ErrStr e]))
    (init API_TOKEN USER_ID).

(** ** Pure readings used to state what the rest does *)

Definition is_dict (v : pyval) : bool :=
  match v with PDict _ => true | _ => false end.

(** The items [get_all_folders] loops over, when the value has a length. *)
Definition items_of (v : pyval) : option (list pyval) :=
  match v with
  | PStr s => Some (chars s)
  | PList l => Some l
  | PDict d => Some (map (fun kv => PStr (fst kv)) d)
  | _ => None
  end.

(** What [get_all_folders] returns for a response: the [data] of a 200
    envelope when every item of it is a dict, [None] otherwise. *)
Definition listed_folders (r : response) : pyval :=
  if status_code r =? 200 then
    match json_body r with
    | Ret (PDict d) =>
        match items_of (dict_get d "data" (PList [])) with
        | Some items =>
            if forallb is_dict items then dict_get d "data" (PList [])
            else PNone
        | None => PNone
        end
    | _ => PNone
    end
  else PNone.

(** The lines the loop over [errors] prints for a list of error objects:
    one per object, with its [description] or the default text. *)
Definition error_lines (errs : list (list (string * pyval))) : list event :=
  map (fun e => EvPrint [Lit "  Error: ";
                         Str (dict_get e "description" (PStr "Unknown error"))])
      errs.


(** The fields of an instance that are set once, at construction. *)
Definition same_configuration (c c' : client) : Prop :=
  api_token c' = api_token c /\ user_id c' = user_id c
  /\ base_url c' = base_url c /\ headers c' = headers c.

(** The record [main] gets from its create call. *)
Definition main_record (transport : request -> outcome response)
  (API_TOKEN USER_ID : pyval) (stamp : string)
  : option (list (string * pyval)) :=
  match transport (create_request (init API_TOKEN USER_ID)
                     (PStr ("Test Folder " ++ stamp)) PNone) with
  | Ret r => envelope_record [200; 201] r
  | Exc _ => None
  end.


Definition resp_listing_bad : response :=
  json_response 200
    ("{" ++ q "data" ++ ": [{" ++ q "id" ++ ": " ++ q "f-1" ++ "}, 7]}")%string
    (PDict [("data", PList [PDict [("id", PStr "f-1")]; PInt 7])]).

Definition resp_null_data : response :=
  json_response 201
    ("{" ++ q "success" ++ ": true, " ++ q "data" ++ ": null}")%string
    (PDict [("success", PBool true); ("data", PNone)]).

(** * Properties *)

Lemma keeps_ret A (a : A) : keeps_self (ret a).
Proof. intro c. reflexivity. Qed.

Lemma keeps_raise A (e : exn) : keeps_self (@raise A e).
Proof. intro c. reflexivity. Qed.

Lemma keeps_emit e : keeps_self (emit e).
Proof. intro c. reflexivity. Qed.

Lemma keeps_print line : keeps_self (print line).
Proof. apply keeps_emit. Qed.

Lemma keeps_get_self : keeps_self get_self.
Proof. intro c. reflexivity. Qed.

Lemma keeps_resp_json r : keeps_self (resp_json r).
Proof. intro c. reflexivity. Qed.

Lemma keeps_requests_call tr m u h b : keeps_self (requests_call tr m u h b).
Proof. intro c. reflexivity. Qed.

Lemma keeps_bind A B (m : M A) (f : A -> M B) :
  keeps_self m -> (forall a, keeps_self (f a)) -> keeps_self (bind m f).
Proof.
  intros Hm Hf c. unfold bind, final. specialize (Hm c). unfold final in Hm.
  destruct (m c) as [[[a | e] c1] t1]; simpl in *; subst c1; auto.
  specialize (Hf a c). unfold final in Hf.
  destruct (f a c) as [[r c2] t2]; simpl in *; assumption.
Qed.

Lemma keeps_try A (m : M A) (h : exn -> M A) :
  keeps_self m -> (forall e, keeps_self (h e)) -> keeps_self (try_except m h).
Proof.
  intros Hm Hh c. unfold try_except, final. specialize (Hm c).
  unfold final in Hm.
  destruct (m c) as [[[a | e] c1] t1]; simpl in *; subst c1; auto.
  specialize (Hh e c). unfold final in Hh.
  destruct (h e c) as [[r c2] t2]; simpl in *; assumption.
Qed.

Lemma keeps_when b m : keeps_self m -> keeps_self (when b m).
Proof. intros H. destruct b; simpl; [assumption | apply keeps_ret]. Qed.

Lemma keeps_py_get v k d : keeps_self (py_get v k d).
Proof. destruct v; simpl; first [apply keeps_ret | apply keeps_raise]. Qed.

Lemma keeps_py_len v : keeps_self (py_len v).
Proof. destruct v; simpl; first [apply keeps_ret | apply keeps_raise]. Qed.

Lemma keeps_py_iter v : keeps_self (py_iter v).
Proof. destruct v; simpl; first [apply keeps_ret | apply keeps_raise]. Qed.

Lemma keeps_for_each A (xs : list A) body :
  (forall x, keeps_self (body x)) -> keeps_self (for_each xs body).
Proof.
  intros Hb. induction xs as [| x xs IH]; simpl.
  - apply keeps_ret.
  - apply keeps_bind; [apply Hb | intros _; exact IH].
Qed.

Lemma keeps_for_enumerate A (xs : list A) body :
  (forall i x, keeps_self (body i x)) ->
  forall i0, keeps_self (for_enumerate i0 xs body).
Proof.
  intros Hb. induction xs as [| x xs IH]; intros i0; simpl.
  - apply keeps_ret.
  - apply keeps_bind; [apply Hb | intros _; apply IH].
Qed.

Create HintDb frame.
#[export] Hint Resolve keeps_ret keeps_raise keeps_emit keeps_print
  keeps_get_self keeps_resp_json keeps_requests_call keeps_py_get
  keeps_py_len keeps_py_iter : frame.

(** Walks a computation and discharges [keeps_self] piece by piece. *)
Ltac frame :=
  repeat first
    [ solve [auto with frame]
    | apply keeps_bind; [| intros ?]
    | apply keeps_try; [| intros ?]
    | apply keeps_when
    | apply keeps_for_each; intros ?
    | apply keeps_for_enumerate; intros ? ?
    | match goal with
      | |- keeps_self (if ?b then _ else _) => destruct b
      | |- keeps_self (let _ := _ in _) => cbv zeta
      end ].

Lemma keeps_log_request m u h b : keeps_self (log_request m u h b).
Proof. unfold log_request. frame. Qed.

Lemma keeps_log_response r : keeps_self (log_response r).
Proof. unfold log_response. frame. Qed.

Lemma keeps_report v e : keeps_self (report v e).
Proof. unfold report. frame. Qed.

Lemma keeps_print_errors d : keeps_self (print_errors d).
Proof. unfold print_errors. frame. Qed.

#[export] Hint Resolve keeps_log_request keeps_log_response keeps_report
  keeps_print_errors : frame.

Lemma keeps_get_all_folders tr : keeps_self (get_all_folders tr).
Proof. unfold get_all_folders. frame. Qed.

Lemma keeps_update_folder_name tr new_name fid :
  keeps_self (update_folder_name tr new_name fid).
Proof. unfold update_folder_name. frame. Qed.

(** ** Runs of the logging helpers *)

Lemma requests_of_app t1 t2 :
  requests_of (t1 ++ t2) = requests_of t1 ++ requests_of t2.
Proof. apply filter_app. Qed.

Lemma decodes_of_app t1 t2 :
  decodes_of (t1 ++ t2) = decodes_of t1 ++ decodes_of t2.
Proof. apply filter_app. Qed.

Lemma last_event_snoc t e : last_event (t ++ [e]) = Some e.
Proof. unfold last_event. rewrite rev_app_distr. reflexivity. Qed.

Lemma tail_nil (tail : list event) : tail = [] ++ tail.
Proof. reflexivity. Qed.

Lemma tail_under (p t t0 tail : list event) :
  t = t0 ++ tail -> p ++ t = (p ++ t0) ++ tail.
Proof. intros ->. apply app_assoc. Qed.

Lemma log_request_run m u h b c :
  exists t, log_request m u h b c = (Ret tt, c, t)
            /\ requests_of t = [] /\ decodes_of t = [].
Proof.
  unfold log_request, when. destruct (truthy b);
    eexists; (split; [reflexivity | split; reflexivity]).
Qed.

Lemma log_response_run r c :
  exists t, log_response r c = (Ret tt, c, t)
            /\ requests_of t = [] /\ decodes_of t = [EvDecode r].
Proof.
  unfold log_response, when, resp_json, try_except, bind, print, emit, ret.
  destruct (json_body r); destruct (status_code r >=? 400);
    eexists; (split; [reflexivity | split; reflexivity]).
Qed.

Lemma for_each_errors_run items c :
  exists o t,
    for_each items (fun error =>
      d <- py_get error "description" (PStr "Unknown error") ;;
      print [Lit "  Error: "; Str d]) c = (o, c, t)
    /\ requests_of t = [] /\ decodes_of t = [].
Proof.
  induction items as [| x xs IH]; simpl.
  - do 2 eexists. split; [reflexivity | split; reflexivity].
  - destruct IH as (o & t & IH & Hq & Hd).
    unfold bind at 1. destruct x; simpl;
      try (do 2 eexists; split; [reflexivity | split; reflexivity]).
    rewrite IH. do 2 eexists. split; [reflexivity |].
    simpl. split; assumption.
Qed.

Lemma print_errors_run d c :
  exists o t, print_errors d c = (o, c, t)
              /\ requests_of t = [] /\ decodes_of t = [].
Proof.
  unfold print_errors.
  assert (Hstop : forall e, exists (o : outcome unit) t,
            (Exc e, c, @nil event) = (o, c, t)
            /\ requests_of t = [] /\ decodes_of t = []).
  { intros e. do 2 eexists. split; [reflexivity | split; reflexivity]. }
  destruct d; simpl; try apply Hstop.
  unfold bind at 1. simpl.
  destruct (dict_get d "errors" (PList [])) as [ | | | | s | l | kv ];
    simpl; try apply Hstop;
    unfold bind at 1; unfold ret at 1; cbv beta iota;
    match goal with
    | |- context [for_each ?xs _ c] =>
        destruct (for_each_errors_run xs c) as (o & t & E & Hq & Hd)
    end;
    rewrite E; do 2 eexists;
    (split; [reflexivity | split; assumption]).
Qed.

(** Symbolic execution: unfold the monad, replace the logging helpers by
    their runs, split on whatever a [match] is stuck on. *)
Ltac py_unfold :=
  cbv [get_all_folders create_folder update_folder_name delete_folder
       report requests_call resp_json py_get
       bind ret raise try_except get_self emit print assign_folder_id when
       result final trace].

Ltac py_box :=
  match goal with
  | |- context [log_request ?m ?u ?h ?b ?c] =>
      let t := fresh "tq" in
      destruct (log_request_run m u h b c) as (t & -> & ? & ?)
  | |- context [log_response ?r ?c] =>
      let t := fresh "tr" in
      destruct (log_response_run r c) as (t & -> & ? & ?)
  | |- context [print_errors ?d ?c] =>
      let o := fresh "o" in
      let t := fresh "te" in
      destruct (print_errors_run d c) as (o & t & -> & ? & ?); destruct o
  end.

Ltac py_split :=
  match goal with
  | |- context [negb ?x] => destruct x eqn:?
  | |- context [match ?x with _ => _ end] =>
      lazymatch x with
      | context [match _ with _ => _ end] => fail
      | _ => destruct x eqn:?
      end
  end.

Ltac py_simpl :=
  cbv beta iota; cbn [negb andb orb truthy is_request_exception fst snd].

Ltac py_eval := py_unfold; py_simpl; repeat (first [py_box | py_split]; py_simpl).

(** Filters a trace whose pieces are known. *)
Ltac py_trace :=
  rewrite ?requests_of_app, ?decodes_of_app;
  repeat match goal with
         | H : requests_of ?t = _ |- context [requests_of ?t] => rewrite H
         | H : decodes_of ?t = _ |- context [decodes_of ?t] => rewrite H
         end;
  reflexivity.

Ltac py_done :=
  try congruence;
  eexists; split; [reflexivity | py_trace].

Lemma delete_folder_run tr fid c :
  truthy (py_or fid (folder_id c)) = true ->
  exists t,
    delete_folder tr fid c =
      (Ret (PBool (match tr (delete_request c fid) with
                   | Ret r => delete_succeeds r
                   | Exc _ => false
                   end)),
       (if match tr (delete_request c fid) with
           | Ret r => delete_succeeds r
           | Exc _ => false
           end
        then set_folder_id PNone c else c),
       t)
    /\ requests_of t = [EvRequest (delete_request c fid)].
Proof.
  intros Ht. unfold delete_request, delete_succeeds, folder_url.
  py_unfold. rewrite Ht. py_simpl.
  repeat (first [py_box | py_split]; py_simpl); py_done.
Qed.

Lemma create_folder_run tr name parent c :
  exists t,
    create_folder tr name parent c =
      (Ret (record_or_none
              match tr (create_request c name parent) with
              | Ret r => envelope_record [200; 201] r
              | Exc _ => None
              end),
       match
         match tr (create_request c name parent) with
         | Ret r => envelope_record [200; 201] r
         | Exc _ => None
         end
       with
       | Some rec => set_folder_id (dict_get rec "id" PNone) c
       | None => c
       end,
       t)
    /\ requests_of t = [EvRequest (create_request c name parent)].
Proof.
  unfold create_request, create_body, envelope_record, record_or_none.
  py_unfold. py_simpl.
  destruct (truthy parent); py_simpl;
    repeat (first [py_box | py_split]; py_simpl); py_done.
Qed.

Lemma update_folder_name_run tr new_name fid c :
  truthy (py_or fid (folder_id c)) = true ->
  exists t,
    update_folder_name tr new_name fid c =
      (Ret (record_or_none
              match tr (update_request c new_name fid) with
              | Ret r => envelope_record [200] r
              | Exc _ => None
              end),
       c, t)
    /\ requests_of t = [EvRequest (update_request c new_name fid)].
Proof.
  intros Ht.
  unfold update_request, folder_url, envelope_record, record_or_none.
  cbv [mem_status existsb].
  py_unfold. rewrite Ht. py_simpl.
  repeat (first [py_box | py_split]; py_simpl); py_done.
Qed.

Lemma update_folder_name_no_target tr new_name fid c :
  truthy (py_or fid (folder_id c)) = false ->
  update_folder_name tr new_name fid c =
    (Ret PNone, c,
     [EvPrint [Lit nl; Lit (rep "*" 60)];
      EvPrint [Lit "TASK #3: UPDATING FOLDER NAME"];
      EvPrint [Lit (rep "*" 60)];
      EvPrint no_target_line]).
Proof. intros Ht. py_unfold. rewrite Ht. reflexivity. Qed.

Lemma delete_folder_no_target tr fid c :
  truthy (py_or fid (folder_id c)) = false ->
  delete_folder tr fid c =
    (Ret PNone, c,
     [EvPrint [Lit nl; Lit (rep "*" 60)];
      EvPrint [Lit "TASK #4: DELETING FOLDER"];
      EvPrint [Lit (rep "*" 60)];
      EvPrint no_target_line]).
Proof. intros Ht. py_unfold. rewrite Ht. reflexivity. Qed.

Lemma no_target_precondition_failure tr new_name fid c :
  truthy (py_or fid (folder_id c)) = false ->
  precondition_failure (update_folder_name tr new_name fid c)
  /\ precondition_failure (delete_folder tr fid c).
Proof.
  intros Ht.
  rewrite (update_folder_name_no_target tr new_name fid c Ht).
  rewrite (delete_folder_no_target tr fid c Ht).
  split; (split; [reflexivity | split; reflexivity]).
Qed.

(** Whatever the body of a [try] does, [report] turns an exception into a
    returned value. *)
Lemma try_report_returns (m : M pyval) v c :
  exists w, result (try_except m (report v) c) = Ret w.
Proof.
  unfold try_except, report, result, bind, ret.
  destruct (m c) as [[[a | e] c1] t1]; simpl.
  - exists a. reflexivity.
  - exists v. destruct (is_request_exception e); reflexivity.
Qed.


Lemma envelope_record_none accepted r :
  mem_status (status_code r) accepted = false \/ flag_missing_or_false r ->
  envelope_record accepted r = None.
Proof.
  unfold envelope_record.
  intros [Hs | (d & Hj & Hf)].
  - rewrite Hs. reflexivity.
  - rewrite Hj. unfold dict_get.
    destruct (mem_status (status_code r) accepted); [| reflexivity].
    destruct Hf as [Hf | Hf]; rewrite Hf; reflexivity.
Qed.

Lemma mem_status_create s :
  mem_status s [200; 201] = true <-> s = 200 \/ s = 201.
Proof.
  unfold mem_status. simpl. rewrite !orb_true_iff, !Z.eqb_eq.
  intuition discriminate.
Qed.

Lemma mem_status_delete s :
  mem_status s [200; 204] = true <-> s = 200 \/ s = 204.
Proof.
  unfold mem_status. simpl. rewrite !orb_true_iff, !Z.eqb_eq.
  intuition discriminate.
Qed.

Lemma mem_status_update s : mem_status s [200] = true <-> s = 200.
Proof.
  unfold mem_status. simpl. rewrite orb_true_iff, Z.eqb_eq.
  intuition discriminate.
Qed.

(** ** The claims *)




(** C2. Rename and delete called without a folder id while none is stored
    fail locally: [None] is returned with the missing id as the reason and
    no request reaches the transport. *)
Theorem no_target_fails_without_request tr new_name c :
  folder_id c = PNone ->
  precondition_failure (update_folder_name tr new_name PNone c)
  /\ precondition_failure (delete_folder tr PNone c).
Proof.
  intros Hc. apply no_target_precondition_failure.
  unfold py_or. simpl. rewrite Hc. reflexivity.
Qed.

Lemma no_target_fails_without_request_witness :
  precondition_failure (update_folder_name (always resp_dup) (PStr "Y") PNone c0)
  /\ precondition_failure (delete_folder (always resp_dup) PNone c0).
Proof.
  apply (no_target_fails_without_request (always resp_dup) (PStr "Y") c0).
  reflexivity.
Defined.

(** C3. A delete that returns [True] leaves [folder_id] at [None], so that
    a rename or delete that follows without a folder id fails on the local
    precondition. *)
Theorem delete_success_clears_folder_id tr fid c :
  result (delete_folder tr fid c) = Ret (PBool true) ->
  folder_id (final (delete_folder tr fid c)) = PNone
  /\ forall tr' new_name,
       precondition_failure
         (update_folder_name tr' new_name PNone (final (delete_folder tr fid c)))
       /\ precondition_failure
            (delete_folder tr' PNone (final (delete_folder tr fid c))).
Proof.
  intros Hres.
  assert (Hid : folder_id (final (delete_folder tr fid c)) = PNone).
  { destruct (truthy (py_or fid (folder_id c))) eqn:Ht.
    - destruct (delete_folder_run tr fid c Ht) as (t & E & _).
      rewrite E in Hres |- *. unfold result, final in *. simpl in *.
      injection Hres as Hb. rewrite Hb. reflexivity.
    - rewrite (delete_folder_no_target tr fid c Ht) in Hres. discriminate. }
  split; [exact Hid |].
  intros tr' new_name. apply no_target_precondition_failure.
  unfold py_or. simpl. rewrite Hid. reflexivity.
Qed.

Lemma delete_success_clears_folder_id_witness :
  folder_id (final (delete_folder (always resp_empty_204) PNone c7)) = PNone
  /\ forall tr' new_name,
       precondition_failure
         (update_folder_name tr' new_name PNone
            (final (delete_folder (always resp_empty_204) PNone c7)))
       /\ precondition_failure
            (delete_folder tr' PNone
               (final (delete_folder (always resp_empty_204) PNone c7))).
Proof.
  apply (delete_success_clears_folder_id (always resp_empty_204) PNone c7).
  reflexivity.
Defined.

(** C4. For create and rename an accepted status is needed for success
    and does not suffice: with any other status, or with a decoded body
    that lacks the [success] flag or carries [success: false], the call
    returns [None]. *)
Theorem accepted_status_is_not_enough tr c :
  (forall name parent r,
      tr (create_request c name parent) = Ret r ->
      ~ (status_code r = 200 \/ status_code r = 201)
      \/ flag_missing_or_false r ->
      result (create_folder tr name parent c) = Ret PNone)
  /\ (forall new_name fid r,
        tr (update_request c new_name fid) = Ret r ->
        status_code r <> 200 \/ flag_missing_or_false r ->
        result (update_folder_name tr new_name fid c) = Ret PNone).
Proof.
  split.
  - intros name parent r Htr H.
    destruct (create_folder_run tr name parent c) as (t & E & _).
    rewrite E, Htr. rewrite envelope_record_none; [reflexivity |].
    destruct H as [H | H]; [left | right; exact H].
    destruct (mem_status (status_code r) [200; 201]) eqn:Hs; [| reflexivity].
    apply mem_status_create in Hs. contradiction.
  - intros new_name fid r Htr H.
    destruct (truthy (py_or fid (folder_id c))) eqn:Ht.
    + destruct (update_folder_name_run tr new_name fid c Ht) as (t & E & _).
      rewrite E, Htr. rewrite envelope_record_none; [reflexivity |].
      destruct H as [H | H]; [left | right; exact H].
      destruct (mem_status (status_code r) [200]) eqn:Hs; [| reflexivity].
      apply mem_status_update in Hs. contradiction.
    + rewrite (update_folder_name_no_target tr new_name fid c Ht).
      reflexivity.
Qed.

Lemma accepted_status_is_not_enough_witness :
  result (create_folder (always resp_dup) (PStr "X") PNone c0) = Ret PNone
  /\ result (update_folder_name (always resp_dup) (PStr "Y") PNone c7)
     = Ret PNone.
Proof.
  pose proof (accepted_status_is_not_enough (always resp_dup) c0) as Hcreate.
  pose proof (accepted_status_is_not_enough (always resp_dup) c7) as Hrename.
  split.
  - apply (proj1 Hcreate (PStr "X") PNone resp_dup); [reflexivity |].
    right. exists [("success", PBool false);
                   ("errors", PList [PDict [("description", PStr "dup")]])].
    split; [reflexivity | right; reflexivity].
  - apply (proj2 Hrename (PStr "Y") PNone resp_dup); [reflexivity |].
    right. exists [("success", PBool false);
                   ("errors", PList [PDict [("description", PStr "dup")]])].
    split; [reflexivity | right; reflexivity].
Defined.

Lemma delete_folder_empty_body_decodes tr fid c r :
  truthy (py_or fid (folder_id c)) = true ->
  tr (delete_request c fid) = Ret r ->
  mem_status (status_code r) [200; 204] = true ->
  content r = "" ->
  decodes_of (trace (delete_folder tr fid c)) = [EvDecode r].
Proof.
  intros Ht Htr Hs Hc. unfold delete_request, folder_url in Htr.
  py_unfold. rewrite Ht. py_simpl. py_box. rewrite Htr. py_simpl. py_box.
  rewrite Hs, Hc. cbn [String.eqb]. py_simpl. py_trace.
Qed.

Lemma delete_succeeds_false r :
  mem_status (status_code r) [200; 204] = true ->
  delete_succeeds r = false <->
  content r <> ""
  /\ exists d s, json_body r = Ret (PDict d)
                 /\ lookup "success" d = Some s /\ truthy s = false.
Proof.
  intros Hs. unfold delete_succeeds. rewrite Hs. simpl.
  destruct (String.eqb_spec (content r) "") as [Hc | Hc]; simpl.
  - split; [discriminate | intros [H _]; contradiction].
  - destruct (json_body r) as [[ | b | z | m e0 | s | l | d ] | e];
      try (split; [discriminate | intros [_ (d' & s' & Hj & _)]; discriminate]).
    unfold dict_get. destruct (lookup "success" d) as [s |] eqn:Hl.
    + split.
      * intros Hf. split; [exact Hc |]. exists d, s. auto.
      * intros [_ (d' & s' & Hj & Hl' & Hf)].
        injection Hj as <-. rewrite Hl in Hl'. injection Hl' as <-. exact Hf.
    + split; [discriminate |].
      intros [_ (d' & s' & Hj & Hl' & _)].
      injection Hj as <-. rewrite Hl in Hl'. discriminate.
Qed.

(** C5, as the code has it.  For a delete answered with status 200 or 204:
    an empty body gives [True], and the only call of [json()] in the run is
    the one [log_response] makes for the console, the handler making none;
    a body that decodes to a dict without a [success] flag gives [True];
    [False] is returned exactly when the body is not empty and decodes to a
    dict whose [success] value is falsy ([false], but also [null], [0] or an
    empty string, list or dict). *)
Theorem delete_folder_reads_response tr fid c r :
  truthy (py_or fid (folder_id c)) = true ->
  tr (delete_request c fid) = Ret r ->
  status_code r = 200 \/ status_code r = 204 ->
  (content r = "" ->
     result (delete_folder tr fid c) = Ret (PBool true)
     /\ decodes_of (trace (delete_folder tr fid c)) = [EvDecode r])
  /\ (forall d, json_body r = Ret (PDict d) -> lookup "success" d = None ->
        result (delete_folder tr fid c) = Ret (PBool true))
  /\ (result (delete_folder tr fid c) = Ret (PBool false) <->
      content r <> ""
      /\ exists d s, json_body r = Ret (PDict d)
                     /\ lookup "success" d = Some s /\ truthy s = false).
Proof.
  intros Ht Htr Hs. apply mem_status_delete in Hs.
  destruct (delete_folder_run tr fid c Ht) as (t & E & _).
  rewrite Htr in E.
  split; [| split].
  - intros Hc. split.
    + rewrite E. unfold result. simpl. unfold delete_succeeds.
      rewrite Hs, Hc. reflexivity.
    + apply delete_folder_empty_body_decodes; assumption.
  - intros d Hj Hl. rewrite E. unfold result. simpl. unfold delete_succeeds.
    rewrite Hs, Hj. unfold dict_get. rewrite Hl. simpl.
    rewrite orb_true_r. reflexivity.
  - rewrite E. unfold result. simpl.
    rewrite <- (delete_succeeds_false r Hs).
    split; [intros H; injection H as H; exact H | intros ->; reflexivity].
Qed.

Lemma delete_folder_reads_response_witness :
  result (delete_folder (always resp_empty_204) PNone c7) = Ret (PBool true)
  /\ decodes_of (trace (delete_folder (always resp_empty_204) PNone c7))
     = [EvDecode resp_empty_204].
Proof.
  apply (delete_folder_reads_response (always resp_empty_204) PNone c7
           resp_empty_204); [reflexivity | reflexivity | right; reflexivity
                            | reflexivity].
Defined.

(** C5 as stated fails twice.  A delete answered with 204 and an empty
    body does call [json()] on that body, in [log_response]; and a body
    whose [success] is [null], not [false], makes the call return [False]. *)
Lemma delete_folder_counterexample :
  decodes_of (trace (delete_folder (always resp_empty_204) PNone c7)) <> []
  /\ json_body resp_null_flag = Ret (PDict [("success", PNone)])
  /\ lookup "success" [("success", PNone)] <> Some (PBool false)
  /\ result (delete_folder (always resp_null_flag) PNone c7)
     = Ret (PBool false).
Proof.
  split; [| split; [| split]].
  - vm_compute. discriminate.
  - reflexivity.
  - vm_compute. discriminate.
  - reflexivity.
Qed.

(** The last event of a run whose trace is a chain of appended pieces. *)
Ltac py_last :=
  rewrite ?app_nil_r; repeat rewrite app_assoc; apply last_event_snoc.

Lemma get_all_folders_rejected tr c r :
  tr (list_request c) = Ret r ->
  status_code r <> 200 ->
  result (get_all_folders tr c) = Ret PNone
  /\ last_event (trace (get_all_folders tr c))
     = Some (EvPrint [Lit nl; Lit "❌ ERROR: Failed to fetch folders"]).
Proof.
  intros Htr Hs. unfold list_request in Htr. apply Z.eqb_neq in Hs.
  py_unfold. py_simpl. py_box. rewrite Htr. py_simpl. py_box. rewrite Hs.
  py_simpl. split; [reflexivity | py_last].
Qed.

Lemma get_all_folders_transport_error tr c e :
  tr (list_request c) = Exc e ->
  result (get_all_folders tr c) = Ret PNone
  /\ last_event (trace (get_all_folders tr c)) = Some (EvPrint (error_line e)).
Proof.
  intros Htr. unfold list_request in Htr. unfold error_line.
  py_unfold. py_simpl. py_box. rewrite Htr. py_simpl.
  destruct (is_request_exception e); py_simpl;
    (split; [reflexivity | py_last]).
Qed.

Lemma get_all_folders_decode_error tr c r e :
  tr (list_request c) = Ret r ->
  status_code r = 200 ->
  json_body r = Exc e ->
  result (get_all_folders tr c) = Ret PNone
  /\ last_event (trace (get_all_folders tr c)) = Some (EvPrint (error_line e)).
Proof.
  intros Htr Hs Hj. unfold list_request in Htr. unfold error_line.
  py_unfold. py_simpl. py_box. rewrite Htr. py_simpl. py_box.
  rewrite Hs, Hj. cbn [Z.eqb Pos.eqb]. py_simpl.
  destruct (is_request_exception e); py_simpl;
    (split; [reflexivity | py_last]).
Qed.

(** C6, as the code has it.  [get_all_folders] always returns, never
    raising; on a status other than 200, on an exception of the transport
    and on an exception of [json()] after a 200 it returns [None].  The
    reason is printed, not returned: a fixed line for a rejected status;
    for an exception, [REQUEST ERROR] or [UNEXPECTED ERROR] according to
    its class, followed by its message, whether it came from the
    connection or from the decoder. *)
Theorem get_all_folders_failures tr c :
  (exists v, result (get_all_folders tr c) = Ret v)
  /\ (forall r,
        tr (list_request c) = Ret r -> status_code r <> 200 ->
        result (get_all_folders tr c) = Ret PNone
        /\ last_event (trace (get_all_folders tr c))
           = Some (EvPrint [Lit nl; Lit "❌ ERROR: Failed to fetch folders"]))
  /\ (forall e,
        tr (list_request c) = Exc e ->
        result (get_all_folders tr c) = Ret PNone
        /\ last_event (trace (get_all_folders tr c))
           = Some (EvPrint (error_line e)))
  /\ (forall r e,
        tr (list_request c) = Ret r -> status_code r = 200 ->
        json_body r = Exc e ->
        result (get_all_folders tr c) = Ret PNone
        /\ last_event (trace (get_all_folders tr c))
           = Some (EvPrint (error_line e))).
Proof.
  split; [| split; [| split]].
  - unfold get_all_folders.
    match goal with
    | |- context [try_except ?m (report ?v)] =>
        set (body := m)
    end.
    unfold bind at 1 2 3. unfold print, emit. cbv beta iota.
    destruct (try_report_returns body PNone c) as (w & Hw).
    unfold result in *.
    destruct (try_except body (report PNone) c) as [[o c1] t1].
    simpl in *. exists w. exact Hw.
  - apply get_all_folders_rejected.
  - apply get_all_folders_transport_error.
  - apply get_all_folders_decode_error.
Qed.

Lemma get_all_folders_failures_witness :
  (result (get_all_folders (always resp_500) c0) = Ret PNone
   /\ last_event (trace (get_all_folders (always resp_500) c0))
      = Some (EvPrint [Lit nl; Lit "❌ ERROR: Failed to fetch folders"]))
  /\ (result (get_all_folders refused c0) = Ret PNone
      /\ last_event (trace (get_all_folders refused c0))
         = Some (EvPrint (error_line (ExRequest "Connection refused"))))
  /\ (result (get_all_folders (always resp_not_json) c0) = Ret PNone
      /\ last_event (trace (get_all_folders (always resp_not_json) c0))
         = Some (EvPrint
                   (error_line
                      (ExRequest "Expecting value: line 1 column 1 (char 0)")))).
Proof.
  split; [| split].
  - apply (proj1 (proj2 (get_all_folders_failures (always resp_500) c0))
             resp_500); [reflexivity | discriminate].
  - apply (proj1 (proj2 (proj2 (get_all_folders_failures refused c0)))).
    reflexivity.
  - apply (proj2 (proj2 (proj2
             (get_all_folders_failures (always resp_not_json) c0)))
             resp_not_json); reflexivity.
Defined.

(** C6 as stated fails: a refused connection, a body that is not JSON and
    a rejected status all return the same [None], and the first two carry
    the same label in their reason. *)
Lemma get_all_folders_counterexample :
  result (get_all_folders refused c0) = Ret PNone
  /\ result (get_all_folders (always resp_not_json) c0) = Ret PNone
  /\ result (get_all_folders (always resp_500) c0) = Ret PNone
  /\ reason_label (trace (get_all_folders refused c0))
     = Some "❌ REQUEST ERROR: "
  /\ reason_label (trace (get_all_folders (always resp_not_json) c0))
     = Some "❌ REQUEST ERROR: ".
Proof. repeat split; reflexivity. Qed.

Lemma for_each_error_lines errs c :
  for_each (map PDict errs) (fun error =>
    d <- py_get error "description" (PStr "Unknown error") ;;
    print [Lit "  Error: "; Str d]) c
  = (Ret tt, c, error_lines errs).
Proof.
  induction errs as [| e errs IH]; simpl; [reflexivity |].
  unfold bind at 1. simpl. rewrite IH. reflexivity.
Qed.

Lemma print_errors_described d errs c :
  lookup "errors" d = Some (PList (map PDict errs)) ->
  print_errors (PDict d) c = (Ret tt, c, error_lines errs).
Proof.
  intros He. unfold print_errors, py_get, dict_get. rewrite He.
  unfold bind at 1. unfold ret at 1. cbv beta iota.
  unfold bind at 1. simpl py_iter. unfold ret at 1. cbv beta iota.
  rewrite for_each_error_lines. reflexivity.
Qed.

Lemma update_folder_name_explicit_failure tr new_name fid c r d errs :
  truthy (py_or fid (folder_id c)) = true ->
  tr (update_request c new_name fid) = Ret r ->
  status_code r = 200 ->
  json_body r = Ret (PDict d) ->
  lookup "success" d = Some (PBool false) ->
  lookup "errors" d = Some (PList (map PDict errs)) ->
  result (update_folder_name tr new_name fid c) = Ret PNone
  /\ requests_of (trace (update_folder_name tr new_name fid c))
     = [EvRequest (update_request c new_name fid)]
  /\ exists t0,
       trace (update_folder_name tr new_name fid c)
       = t0 ++ EvPrint [Lit nl; Lit "❌ ERROR: API returned success=false"]
               :: error_lines errs.
Proof.
  intros Ht Htr Hs Hj Hf He.
  destruct (update_folder_name_run tr new_name fid c Ht) as (t & E & R).
  split; [| split].
  - rewrite E, Htr. rewrite envelope_record_none; [reflexivity |].
    right. exists d. auto.
  - rewrite E. exact R.
  - clear t E R. unfold update_request, folder_url in Htr.
    py_unfold. rewrite Ht. py_simpl. py_box. rewrite Htr. py_simpl. py_box.
    rewrite Hs, Hj. cbn [Z.eqb Pos.eqb]. py_simpl.
    unfold dict_get at 1. rewrite Hf. py_simpl.
    rewrite (print_errors_described d errs _ He). py_simpl.
    rewrite ?app_nil_r.
    eexists.
    repeat first
      [ apply (tail_nil
                 (EvPrint [Lit nl; Lit "❌ ERROR: API returned success=false"]
                  :: error_lines errs))
      | eapply tail_under ].
Qed.

(** C7. Rename leaves [folder_id] as it was, whatever the transport
    answers.  And a rename answered with status 200 and a body whose
    [success] is false and whose [errors] is a list of error objects (the
    single error described [dup] among them) is a failure that carries
    every description: it returns [None] after its one PUT, and its output
    ends with the failure line followed by one line per error, each giving
    that error's description. *)
Theorem update_folder_name_keeps_folder_id tr new_name fid c :
  folder_id (final (update_folder_name tr new_name fid c)) = folder_id c
  /\ forall r d errs,
       truthy (py_or fid (folder_id c)) = true ->
       tr (update_request c new_name fid) = Ret r ->
       status_code r = 200 ->
       json_body r = Ret (PDict d) ->
       lookup "success" d = Some (PBool false) ->
       lookup "errors" d = Some (PList (map PDict errs)) ->
       result (update_folder_name tr new_name fid c) = Ret PNone
       /\ requests_of (trace (update_folder_name tr new_name fid c))
          = [EvRequest (update_request c new_name fid)]
       /\ exists t0,
            trace (update_folder_name tr new_name fid c)
            = t0 ++ EvPrint [Lit nl;
                             Lit "❌ ERROR: API returned success=false"]
                    :: map (fun e =>
                              EvPrint [Lit "  Error: ";
                                       Str (dict_get e "description"
                                              (PStr "Unknown error"))])
                           errs.
Proof.
  split.
  - rewrite (keeps_update_folder_name tr new_name fid c). reflexivity.
  - intros r d errs. apply update_folder_name_explicit_failure.
Qed.

Lemma update_folder_name_keeps_folder_id_witness :
  folder_id (final (update_folder_name (always resp_dup) (PStr "Y") PNone c7))
    = PStr "folder-7"
  /\ result (update_folder_name (always resp_dup) (PStr "Y") PNone c7)
     = Ret PNone
  /\ requests_of (trace (update_folder_name (always resp_dup) (PStr "Y")
                           PNone c7))
     = [EvRequest (update_request c7 (PStr "Y") PNone)]
  /\ exists t0,
       trace (update_folder_name (always resp_dup) (PStr "Y") PNone c7)
       = t0 ++ [EvPrint [Lit nl; Lit "❌ ERROR: API returned success=false"];
                EvPrint [Lit "  Error: "; Str (PStr "dup")]].
Proof.
  pose proof (update_folder_name_keeps_folder_id
                (always resp_dup) (PStr "Y") PNone c7) as [Hid Hdup].
  split; [exact Hid |].
  apply (Hdup resp_dup
           [("success", PBool false);
            ("errors", PList [PDict [("description", PStr "dup")]])]
           [[("description", PStr "dup")]]); reflexivity.
Defined.

Lemma urls_of_requests t rq :
  requests_of t = [EvRequest rq] -> urls_of t = [req_url rq].
Proof. intros H. unfold urls_of. rewrite H. reflexivity. Qed.

(** C8, as the code has it.  When rename or delete reach the transport,
    the one request they make goes to the URL of [folder_id or
    self.folder_id]: the argument when it is truthy, the stored id when the
    argument is [None] or another falsy value such as the empty string. *)
Theorem target_id_resolution tr new_name fid c :
  truthy (py_or fid (folder_id c)) = true ->
  urls_of (trace (update_folder_name tr new_name fid c))
    = [[Lit (base_url c); Lit "/";
        Str (if truthy fid then fid else folder_id c)]]
  /\ urls_of (trace (delete_folder tr fid c))
     = [[Lit (base_url c); Lit "/";
         Str (if truthy fid then fid else folder_id c)]].
Proof.
  intros Ht.
  destruct (update_folder_name_run tr new_name fid c Ht) as (t1 & E1 & R1).
  destruct (delete_folder_run tr fid c Ht) as (t2 & E2 & R2).
  rewrite E1, E2. unfold trace. simpl.
  rewrite (urls_of_requests _ _ R1), (urls_of_requests _ _ R2).
  split; reflexivity.
Qed.

Lemma target_id_resolution_witness :
  urls_of (trace (update_folder_name (always resp_dup) (PStr "Y")
                    (PStr "folder-9") c7))
    = [[Lit (base_url c7); Lit "/"; Str (PStr "folder-9")]]
  /\ urls_of (trace (delete_folder (always resp_dup) (PStr "folder-9") c7))
     = [[Lit (base_url c7); Lit "/"; Str (PStr "folder-9")]].
Proof.
  apply (target_id_resolution (always resp_dup) (PStr "Y")
           (PStr "folder-9") c7).
  reflexivity.
Defined.

(** C8 as stated fails: with the empty string given as folder id and
    [folder-7] stored, rename and delete address the stored folder. *)
Lemma target_id_counterexample :
  urls_of (trace (update_folder_name (always resp_dup) (PStr "Y") (PStr "") c7))
    = [[Lit (base_url c7); Lit "/"; Str (PStr "folder-7")]]
  /\ urls_of (trace (delete_folder (always resp_empty_204) (PStr "") c7))
     = [[Lit (base_url c7); Lit "/"; Str (PStr "folder-7")]]
  /\ folder_id (final (delete_folder (always resp_empty_204) (PStr "") c7))
     = PNone.
Proof. repeat split; reflexivity. Qed.

(** C9. A delete that does not return [True] leaves the instance, and so
    [folder_id], as it found it: only a successful delete writes the
    field. *)
Theorem delete_failure_keeps_folder_id tr fid c :
  result (delete_folder tr fid c) <> Ret (PBool true) ->
  final (delete_folder tr fid c) = c.
Proof.
  intros Hres.
  destruct (truthy (py_or fid (folder_id c))) eqn:Ht.
  - destruct (delete_folder_run tr fid c Ht) as (t & E & _).
    rewrite E in Hres |- *. unfold result, final in *. simpl in *.
    destruct (match tr (delete_request c fid) with
              | Ret r => delete_succeeds r
              | Exc _ => false
              end); [contradiction | reflexivity].
  - rewrite (delete_folder_no_target tr fid c Ht). reflexivity.
Qed.

Lemma delete_failure_keeps_folder_id_witness :
  final (delete_folder (always resp_dup) PNone c7) = c7
  /\ final (delete_folder (always resp_500) PNone c7) = c7
  /\ final (delete_folder refused PNone c7) = c7.
Proof.
  split; [| split].
  - apply (delete_failure_keeps_folder_id (always resp_dup) PNone c7).
    discriminate.
  - apply (delete_failure_keeps_folder_id (always resp_500) PNone c7).
    discriminate.
  - apply (delete_failure_keeps_folder_id refused PNone c7).
    discriminate.
Defined.



(** * The rest of the program *)

(** A loop whose body only prints, and raises exactly on the items that
    fail [good], runs to the end or stops at the first such item. *)
Lemma for_enumerate_quiet A (body : Z -> A -> M unit) (good : A -> bool) :
  (forall i x c, exists o t,
      body i x c = (o, c, t)
      /\ requests_of t = [] /\ decodes_of t = []
      /\ (good x = true -> o = Ret tt)
      /\ (good x = false -> exists e, o = Exc e)) ->
  forall xs i0 c, exists o t,
    for_enumerate i0 xs body c = (o, c, t)
    /\ requests_of t = [] /\ decodes_of t = []
    /\ (forallb good xs = true -> o = Ret tt)
    /\ (forallb good xs = false -> exists e, o = Exc e).
Proof.
  intros Hb xs. induction xs as [| x xs IH]; intros i0 c.
  - exists (Ret tt), []. simpl. repeat split; auto. discriminate.
  - destruct (Hb i0 x c) as (o1 & t1 & E1 & Q1 & D1 & G1 & B1).
    destruct (IH (i0 + 1) c) as (o2 & t2 & E2 & Q2 & D2 & G2 & B2).
    simpl. unfold bind. rewrite E1.
    destruct (good x) eqn:Hx; simpl.
    + rewrite (G1 eq_refl), E2. exists o2, (t1 ++ t2).
      rewrite requests_of_app, decodes_of_app, Q1, Q2, D1, D2.
      repeat split; auto.
    + destruct (B1 eq_refl) as (e & ->). exists (Exc e), t1.
      repeat split; auto; try discriminate; intros _; exists e; reflexivity.
Qed.

Ltac py_unfold_all := py_unfold; cbv [py_len py_iter ret raise]; py_simpl.

(** Replaces the loop of [get_all_folders] by its run. *)
Ltac py_loop :=
  match goal with
  | |- context [for_enumerate ?i ?xs ?b ?c] =>
      let Hb := fresh "Hb" in
      let o := fresh "o" in
      let t := fresh "tl" in
      assert (Hb : forall j x c', exists o t,
                 b j x c' = (o, c', t)
                 /\ requests_of t = [] /\ decodes_of t = []
                 /\ (is_dict x = true -> o = Ret tt)
                 /\ (is_dict x = false -> exists e, o = Exc e))
        by (intros j x c'; destruct x; do 2 eexists;
            (split; [reflexivity |]);
            repeat split; try reflexivity; try discriminate;
            intros _; eexists; reflexivity);
      destruct (for_enumerate_quiet _ b is_dict Hb xs i c)
        as (o & t & -> & ? & ? & ? & ?);
      clear Hb
  end.

Ltac py_loop_outcome :=
  match goal with
  | G : forallb is_dict ?xs = true -> ?o = Ret tt,
    B : forallb is_dict ?xs = false -> exists e, ?o = Exc e |- _ =>
      destruct (forallb is_dict xs) eqn:?;
      [ rewrite (G eq_refl) in *
      | let e := fresh "e" in destruct (B eq_refl) as (e & ->) ];
      clear G B
  end.

Lemma get_all_folders_run tr c :
  exists t,
    get_all_folders tr c =
      (Ret match tr (list_request c) with
           | Ret r => listed_folders r
           | Exc _ => PNone
           end,
       c, t)
    /\ requests_of t = [EvRequest (list_request c)].
Proof.
  unfold list_request, listed_folders, items_of.
  py_unfold_all.
  repeat (first [py_box | py_loop; py_loop_outcome | py_split]; py_simpl);
    py_done.
Qed.

(** ** Listing *)

(** X1. Whatever the transport does, [get_all_folders] hands it exactly
    one request, a GET of the base URL with the instance's headers and no
    body, and leaves the instance as it was. *)
Theorem get_all_folders_one_request tr c :
  final (get_all_folders tr c) = c
  /\ requests_of (trace (get_all_folders tr c))
     = [EvRequest {| req_method := "GET"; req_url := [Lit (base_url c)];
                     req_headers := PDict (headers c); req_json := None |}].
Proof.
  destruct (get_all_folders_run tr c) as (t & E & R).
  rewrite E. split; [reflexivity | exact R].
Qed.



(** X3. A 200 answer is still a failure when it is not shaped as the loop
    expects: a body that is not an object, a [data] that has no length
    ([null], a number, a boolean), or a [data] with an item that is not an
    object all make [get_all_folders] return [None]. *)
Theorem get_all_folders_malformed tr c r :
  tr (list_request c) = Ret r ->
  status_code r = 200 ->
  (forall v, json_body r = Ret v -> is_dict v = false ->
     result (get_all_folders tr c) = Ret PNone)
  /\ (forall d,
        json_body r = Ret (PDict d) ->
        items_of (dict_get d "data" (PList [])) = None
        \/ (exists items,
              items_of (dict_get d "data" (PList [])) = Some items
              /\ forallb is_dict items = false) ->
        result (get_all_folders tr c) = Ret PNone).
Proof.
  intros Htr Hs.
  destruct (get_all_folders_run tr c) as (t & E & _).
  rewrite E, Htr. unfold listed_folders. rewrite Hs. simpl.
  split.
  - intros v Hj Hv. rewrite Hj. destruct v; try reflexivity; discriminate.
  - intros d Hj [Hi | (items & Hi & Hf)]; rewrite Hj, Hi; [reflexivity |].
    rewrite Hf. reflexivity.
Qed.

Lemma get_all_folders_malformed_witness :
  result (get_all_folders (always resp_listing_bad) c0) = Ret PNone.
Proof.
  apply (proj2 (get_all_folders_malformed (always resp_listing_bad) c0
                  resp_listing_bad eq_refl eq_refl)
           [("data", PList [PDict [("id", PStr "f-1")]; PInt 7])]).
  - reflexivity.
  - right. exists [PDict [("id", PStr "f-1")]; PInt 7].
    split; reflexivity.
Defined.

(** ** Creating *)

(** X4. [create_folder] hands the transport exactly one request: a POST of
    the base URL with the instance's headers, whose body carries the title,
    the user id of the instance (also when that is [None]) and the parent
    folder id exactly when one is given and truthy. *)
Theorem create_folder_one_request tr name parent c :
  exists body,
    requests_of (trace (create_folder tr name parent c))
      = [EvRequest {| req_method := "POST"; req_url := [Lit (base_url c)];
                      req_headers := PDict (headers c);
                      req_json := Some (PDict body) |}]
    /\ lookup "title" body = Some name
    /\ lookup "user_id" body = Some (user_id c)
    /\ lookup "parent_folder_id" body
       = (if truthy parent then Some parent else None).
Proof.
  destruct (create_folder_run tr name parent c) as (t & E & R).
  exists (create_body c name parent). rewrite E.
  split; [exact R |].
  unfold create_body. destruct (truthy parent); repeat split; reflexivity.
Qed.




(** X7. When an accepted answer says [success] but its [data] is present
    and is not an object ([null], a list, a string), [create_folder] fails
    on reading the id: it returns [None], reports the attribute error as an
    unexpected error and leaves the instance as it was. *)
Theorem create_folder_data_not_record tr name parent c r d v :
  tr (create_request c name parent) = Ret r ->
  status_code r = 200 \/ status_code r = 201 ->
  json_body r = Ret (PDict d) ->
  truthy (dict_get d "success" (PBool false)) = true ->
  lookup "data" d = Some v ->
  is_dict v = false ->
  result (create_folder tr name parent c) = Ret PNone
  /\ final (create_folder tr name parent c) = c
  /\ last_event (trace (create_folder tr name parent c))
     = Some (EvPrint [Lit nl; Lit "❌ UNEXPECTED ERROR: ";
                      ErrStr (ExAttribute v "get")]).
Proof.
  intros Htr Hs Hj Hf Hd Hv. apply mem_status_create in Hs.
  assert (Hd' : dict_get d "data" (PDict []) = v)
    by (unfold dict_get; rewrite Hd; reflexivity).
  unfold create_request, create_body in Htr.
  py_unfold. py_simpl.
  destruct (truthy parent); py_simpl; py_box; rewrite Htr; py_simpl; py_box;
    rewrite Hs, Hj; py_simpl; rewrite Hf, Hd'; py_simpl;
    (destruct v; try discriminate; py_simpl;
     (split; [reflexivity | split; [reflexivity | py_last]])).
Qed.

Lemma create_folder_data_not_record_witness :
  result (create_folder (always resp_null_data) (PStr "X") PNone c7)
    = Ret PNone
  /\ final (create_folder (always resp_null_data) (PStr "X") PNone c7) = c7
  /\ last_event (trace (create_folder (always resp_null_data) (PStr "X")
                          PNone c7))
     = Some (EvPrint [Lit nl; Lit "❌ UNEXPECTED ERROR: ";
                      ErrStr (ExAttribute PNone "get")]).
Proof.
  apply (create_folder_data_not_record (always resp_null_data) (PStr "X")
           PNone c7 resp_null_data
           [("success", PBool true); ("data", PNone)] PNone).
  - reflexivity.
  - right. reflexivity.
  - reflexivity.
  - reflexivity.
  - reflexivity.
  - reflexivity.
Defined.

(** ** Renaming and deleting *)






(** ** What every operation keeps *)

(** X11. No operation touches what the constructor set: token, user id,
    base URL and headers are the same after [get_all_folders],
    [create_folder], [update_folder_name] and [delete_folder], whatever
    the transport answers; [folder_id] is the only field they write. *)
Theorem operations_keep_configuration tr c :
  same_configuration c (final (get_all_folders tr c))
  /\ (forall name parent,
        same_configuration c (final (create_folder tr name parent c)))
  /\ (forall new_name fid,
        same_configuration c (final (update_folder_name tr new_name fid c)))
  /\ (forall fid, same_configuration c (final (delete_folder tr fid c))).
Proof.
  assert (Hsame : same_configuration c c) by (repeat split).
  assert (Hset : forall v, same_configuration c (set_folder_id v c))
    by (intros v; repeat split).
  split; [| split; [| split]].
  - rewrite (keeps_get_all_folders tr c). exact Hsame.
  - intros name parent.
    destruct (create_folder_run tr name parent c) as (t & E & _).
    rewrite E. unfold final. simpl.
    destruct (match tr (create_request c name parent) with
              | Ret r => envelope_record [200; 201] r
              | Exc _ => None
              end); auto.
  - intros new_name fid.
    rewrite (keeps_update_folder_name tr new_name fid c). exact Hsame.
  - intros fid. destruct (truthy (py_or fid (folder_id c))) eqn:Ht.
    + destruct (delete_folder_run tr fid c Ht) as (t & E & _).
      rewrite E. unfold final. simpl.
      destruct (match tr (delete_request c fid) with
                | Ret r => delete_succeeds r
                | Exc _ => false
                end); auto.
    + rewrite (delete_folder_no_target tr fid c Ht). exact Hsame.
Qed.

(** X12. No operation lets an exception out: whatever the transport and
    the decoder raise, and whatever shape the decoded body has,
    [create_folder], [update_folder_name] and [delete_folder] return a
    value. *)
Theorem operations_always_return tr c :
  (forall name parent,
      exists v, result (create_folder tr name parent c) = Ret v)
  /\ (forall new_name fid,
        exists v, result (update_folder_name tr new_name fid c) = Ret v)
  /\ (forall fid, exists v, result (delete_folder tr fid c) = Ret v).
Proof.
  split; [| split].
  - intros name parent.
    destruct (create_folder_run tr name parent c) as (t & E & _).
    rewrite E. eexists. reflexivity.
  - intros new_name fid. destruct (truthy (py_or fid (folder_id c))) eqn:Ht.
    + destruct (update_folder_name_run tr new_name fid c Ht) as (t & E & _).
      rewrite E. eexists. reflexivity.
    + rewrite (update_folder_name_no_target tr new_name fid c Ht).
      eexists. reflexivity.
  - intros fid. destruct (truthy (py_or fid (folder_id c))) eqn:Ht.
    + destruct (delete_folder_run tr fid c Ht) as (t & E & _).
      rewrite E. eexists. reflexivity.
    + rewrite (delete_folder_no_target tr fid c Ht).
      eexists. reflexivity.
Qed.

(** ** Logging and validation *)

(** X13. [log_response] is safe on any response: it returns without
    raising, leaves the instance alone, sends nothing and calls [json()]
    once; it prints the decoded body when there is one and the raw text
    when decoding fails, and ends with the raw text as error message
    exactly for a status of 400 or more. *)
Theorem log_response_observes r c :
  result (log_response r c) = Ret tt
  /\ final (log_response r c) = c
  /\ requests_of (trace (log_response r c)) = []
  /\ decodes_of (trace (log_response r c)) = [EvDecode r]
  /\ (forall v, json_body r = Ret v ->
        In (EvPrint [Lit "Response Body: "; Dumps v])
           (trace (log_response r c)))
  /\ (forall e, json_body r = Exc e ->
        In (EvPrint [Lit "Response Body (Raw): "; Lit (text r)])
           (trace (log_response r c)))
  /\ (last_event (trace (log_response r c))
        = Some (EvPrint [Lit "ERROR MESSAGE: "; Lit (text r)])
      <-> 400 <= status_code r).
Proof.
  unfold log_response, when, resp_json, try_except, bind, print, emit, ret,
    result, final, trace.
  destruct (json_body r) as [v | e] eqn:Hj;
    destruct (Z.geb_spec (status_code r) 400) as [Hs | Hs];
    simpl;
    (repeat split;
     try reflexivity; try lia; try discriminate;
     try (intros v' Hv; inversion Hv; subst; simpl; tauto);
     try (intros e' He; inversion He; subst; simpl; tauto);
     try (intros H; exfalso; revert H; vm_compute; discriminate)).
Qed.

(** X14. [validate_response] accepts exactly when the status is among the
    expected ones and the body decodes; it never raises and leaves the
    instance alone; on an unexpected status it answers without calling
    [json()] at all, and names the status in its message. *)
Theorem validate_response_verdict r expected c :
  (exists msg, result (validate_response r expected c) = Ret
                 (mem_status (status_code r) expected
                  && match json_body r with Ret _ => true | Exc _ => false end,
                  msg))
  /\ final (validate_response r expected c) = c
  /\ (mem_status (status_code r) expected = false ->
      decodes_of (trace (validate_response r expected c)) = []
      /\ result (validate_response r expected c)
         = Ret (false, [Lit "Unexpected status code: ";
                        Str (PInt (status_code r))]))
  /\ (mem_status (status_code r) expected = true ->
      decodes_of (trace (validate_response r expected c)) = [EvDecode r]).
Proof.
  unfold validate_response, resp_json, try_except, bind, ret, result, final,
    trace.
  destruct (mem_status (status_code r) expected); simpl;
    destruct (json_body r); simpl;
    (split; [eexists; reflexivity |]);
    (split; [reflexivity |]);
    (split; [try discriminate; intros _; split; reflexivity
            | try discriminate; intros _; reflexivity]).
Qed.

Lemma validate_response_verdict_witness :
  decodes_of (trace (validate_response resp_500 [200] c0)) = []
  /\ result (validate_response resp_500 [200] c0)
     = Ret (false, [Lit "Unexpected status code: "; Str (PInt 500)]).
Proof.
  apply (proj1 (proj2 (proj2 (validate_response_verdict resp_500 [200] c0)))).
  reflexivity.
Defined.

(** ** The demonstration sequence *)


Ltac py_method :=
  match goal with
  | |- context [get_all_folders ?tr ?c] =>
      let t := fresh "tg" in
      destruct (get_all_folders_run tr c) as (t & -> & ?)
  | |- context [create_folder ?tr ?n ?p ?c] =>
      let t := fresh "tc" in
      destruct (create_folder_run tr n p c) as (t & -> & ?)
  end.

(** Splits a chain of appended pieces before a given tail. *)
Ltac py_tail := repeat first [apply tail_nil | eapply tail_under].

Ltac py_main_done :=
  py_simpl; do 2 eexists;
  split; [apply f_equal2; [reflexivity | py_tail] | py_trace].

Lemma main_run tr tok uid stamp :
  exists t0 cf,
    main tr tok uid stamp =
      (Ret tt, cf,
       t0 ++ [EvPrint [Lit (nl ++ rep "=" 80)%string];
              EvPrint [Lit "CRUD OPERATIONS COMPLETED SUCCESSFULLY!"];
              EvPrint [Lit (rep "=" 80)]])
    /\ requests_of t0 =
       [EvRequest (list_request (init tok uid));
        EvRequest (create_request (init tok uid)
                     (PStr ("Test Folder " ++ stamp)) PNone)]
       ++ match main_record tr tok uid stamp with
          | Some rec =>
              if truthy (PDict rec) && truthy (dict_get rec "id" PNone) then
                [EvRequest
                   (update_request
                      (set_folder_id (dict_get rec "id" PNone) (init tok uid))
                      (PStr ("Updated " ++ "Test Folder " ++ stamp)) PNone);
                 EvRequest
                   (delete_request
                      (set_folder_id (dict_get rec "id" PNone) (init tok uid))
                      PNone)]
              else []
          | None => []
          end.
Proof.
  unfold main, main_record, sleep.
  cbv [bind try_except print emit ret]. py_simpl.
  py_method. py_simpl. py_method. py_simpl.
  match goal with
  | |- context [record_or_none ?X] => destruct X as [[| kv rec'] |]
  end; cbn [record_or_none truthy andb].
  - py_main_done.
  - set (rec := kv :: rec').
    set (c1 := set_folder_id (dict_get rec "id" PNone) (init tok uid)).
    destruct (truthy (dict_get rec "id" PNone)) eqn:Hid.
    + assert (Ht : truthy (py_or PNone (folder_id c1)) = true) by exact Hid.
      destruct (update_folder_name_run tr
                  (PStr ("Updated " ++ "Test Folder " ++ stamp)) PNone c1 Ht)
        as (tu & -> & ?).
      py_simpl.
      destruct (delete_folder_run tr PNone c1 Ht) as (td & -> & ?).
      py_main_done.
    + assert (Ht : truthy (py_or PNone (folder_id c1)) = false) by exact Hid.
      rewrite (update_folder_name_no_target tr _ PNone c1 Ht). py_simpl.
      rewrite (delete_folder_no_target tr PNone c1 Ht).
      py_main_done.
  - py_main_done.
Qed.

(** X15. [main] ends every run by printing that the operations completed
    successfully, also when the listing, the create, the rename or the
    delete failed: since no operation raises, its [except] branch is never
    taken and nothing in it looks at what the operations returned beyond
    the truth value of the created record. *)
Theorem main_always_reports_success tr tok uid stamp :
  result (main tr tok uid stamp) = Ret tt
  /\ exists t0,
       trace (main tr tok uid stamp)
       = t0 ++ [EvPrint [Lit (nl ++ rep "=" 80)%string];
                EvPrint [Lit "CRUD OPERATIONS COMPLETED SUCCESSFULLY!"];
                EvPrint [Lit (rep "=" 80)]].
Proof.
  destruct (main_run tr tok uid stamp) as (t0 & cf & E & _).
  rewrite E. split; [reflexivity | exists t0; reflexivity].
Qed.


(** X17. The user id travels twice, by different rules: the headers built
    by the constructor carry [user_id] only when it is truthy, while the
    body of a create request always carries it, [None] included; the
    token is always among the headers. *)
Theorem user_id_in_headers_and_body tr tok uid name parent :
  exists hs body,
    requests_of (trace (create_folder tr name parent (init tok uid)))
      = [EvRequest
           {| req_method := "POST";
              req_url := [Lit "https://apihub.document360.io/v2/Drive/Folders"];
              req_headers := PDict hs;
              req_json := Some (PDict body) |}]
    /\ lookup "api_token" hs = Some tok
    /\ lookup "user_id" hs = (if truthy uid then Some uid else None)
    /\ lookup "user_id" body = Some uid.
Proof.
  destruct (create_folder_run tr name parent (init tok uid)) as (t & E & R).
  exists (headers (init tok uid)),
         (create_body (init tok uid) name parent).
  rewrite E. split; [exact R |].
  unfold create_body, init. simpl.
  destruct (truthy uid); destruct (truthy parent); repeat split; reflexivity.
Qed.

